(** * Trustable MCP server: the scoring function and the tool dispatch

    A shallow embedding of [src/index.js]: the score estimate
    [estimateScore], the [ListTools] handler and the [CallTool] handler with
    its five branches, followed by the properties of the specification that
    were checked against them. *)

From Stdlib Require Import ZArith QArith Qcanon Bool List Ascii String Lia Lqa.
Import ListNotations.

Local Open Scope string_scope.
Local Open Scope Z_scope.

(** ** JavaScript numbers

    A number is [NaN], one of the two infinities, or a finite value.  Finite
    values are canonical rationals and [+] and [*] on them are exact.  The
    only arithmetic of the program on a value that is not a constant is
    [platformCount * 5], computed when [2 <= platformCount < 4]: the model
    agrees with the IEEE 754 double arithmetic of the runtime whenever
    [platformCount] is an integer or lies outside that interval, and takes
    the product exactly where the runtime rounds it to the nearest double.
    Comparisons are exact in both.  The sign of zero is not modelled. *)

Module JsNumber.

Inductive number : Type :=
| NaN
| Inf (negative : bool)
| Fin (q : Qc).

Definition of_Z (z : Z) : number := Fin (Q2Qc (inject_Z z)).

(** The fraction [n/d], for inputs such as 2.5 = [frac 5 2]. *)
Definition frac (n : Z) (d : positive) : number := Fin (Q2Qc (n # d)).

(** [a <= b]; any comparison with [NaN] is false. *)
Definition le (a b : number) : bool :=
  match a, b with
  | NaN, _ | _, NaN => false
  | Inf true, _ => true
  | _, Inf false => true
  | Inf false, _ => false
  | _, Inf true => false
  | Fin p, Fin q => Qle_bool p q
  end.

(** [a < b]. *)
Definition lt (a b : number) : bool :=
  match a, b with
  | NaN, _ | _, NaN => false
  | Inf s, Inf s' => s && negb s'
  | Inf s, Fin _ => s
  | Fin _, Inf s => negb s
  | Fin p, Fin q => negb (Qle_bool q p)
  end.

(** [a >= b] and [a > b]. *)
Definition ge (a b : number) : bool := le b a.
Definition gt (a b : number) : bool := lt b a.

(** [a === b] on numbers: [NaN] is equal to nothing. *)
Definition eqb (a b : number) : bool :=
  match a, b with
  | Inf s, Inf s' => Bool.eqb s s'
  | Fin p, Fin q => Qeq_bool p q
  | _, _ => false
  end.

Definition is_neg (q : Qc) : bool := negb (Qle_bool 0 q).

Definition add (a b : number) : number :=
  match a, b with
  | NaN, _ | _, NaN => NaN
  | Inf s, Inf s' => if Bool.eqb s s' then Inf s else NaN
  | Inf s, Fin _ | Fin _, Inf s => Inf s
  | Fin p, Fin q => Fin (p + q)
  end.

Definition mul (a b : number) : number :=
  match a, b with
  | NaN, _ | _, NaN => NaN
  | Inf s, Inf s' => Inf (xorb s s')
  | Inf s, Fin q | Fin q, Inf s =>
      if Qeq_bool q 0 then NaN else Inf (xorb s (is_neg q))
  | Fin p, Fin q => Fin (p * q)
  end.

(** [Math.min] and [Math.max] of two arguments: [NaN] as soon as one
    argument is [NaN]. *)
Definition Math_min (a b : number) : number :=
  match a, b with
  | NaN, _ | _, NaN => NaN
  | _, _ => if le a b then a else b
  end.

Definition Math_max (a b : number) : number :=
  match a, b with
  | NaN, _ | _, NaN => NaN
  | _, _ => if le a b then b else a
  end.

(** [ToBoolean] on a number: [0] and [NaN] are falsy. *)
Definition truthy (a : number) : bool :=
  match a with
  | NaN => false
  | Inf _ => true
  | Fin q => negb (Qeq_bool q 0)
  end.

(** [Number.isInteger]. *)
Definition is_integer (a : number) : bool :=
  match a with
  | Fin q => Pos.eqb (Qden q) 1
  | _ => false
  end.

(** The integer value of an integer-valued number, for numerals. *)
Definition to_Z (a : number) : option Z :=
  match a with
  | Fin q => if Pos.eqb (Qden q) 1 then Some (Qnum q) else None
  | _ => None
  end.

End JsNumber.

Import JsNumber.

Declare Scope js_scope.
Delimit Scope js_scope with js.
Bind Scope js_scope with number.
Number Notation number of_Z to_Z : js_scope.
Infix "+" := add : js_scope.
Infix "*" := mul : js_scope.
Infix "<=?" := le : js_scope.
Infix "<?" := lt : js_scope.
Infix ">=?" := ge (at level 70) : js_scope.
Infix ">?" := gt (at level 70) : js_scope.

(** ** The score estimate *)

Record VisibilitySignals : Type := mkSignals {
  platformCount : number;
  hasWikidata : bool;
  hasGoogleBusiness : bool;
  hasSchemaMarkup : bool;
  contentAge : number;
  hasComparisonContent : bool
}.

(** [estimateScore] of [src/index.js]; each [let] is one statement of the
    source, rebinding the local [score]. *)
Definition estimateScore (signals : VisibilitySignals) : number :=
  (let score := 20 in
   let score :=
     if platformCount signals >=? 4 then score + 25
     else if platformCount signals >=? 2 then score + platformCount signals * 5
     else score in
   let score := if hasWikidata signals then score + 10 else score in
   let score := if hasGoogleBusiness signals then score + 8 else score in
   let score := if hasSchemaMarkup signals then score + 10 else score in
   let score :=
     if contentAge signals <=? 6 then score + 12
     else if contentAge signals <=? 12 then score + 8
     else score in
   let score := if hasComparisonContent signals then score + 15 else score in
   Math_min 100 (Math_max 0 score))%js.

(** ** Values, arguments and results

    A [value] is what an object literal of the handlers can hold.  The text
    of a result is [JSON.stringify(payload, null, 2)]; the serialisation is
    the runtime's, so the model keeps the payload and the indentation under
    the constructor [JSON_stringify]. *)

#[warnings="-register-all"]
Inductive value : Type :=
| VUndefined
| VNull
| VBool (b : bool)
| VNum (n : number)
| VStr (s : string)
| VArr (items : list value)
| VObj (props : list (string * value)).

Inductive text_of : Type :=
| JSON_stringify (payload : value) (space : Z).

Record TextContent : Type := mkText {
  type : string;
  text : text_of
}.

Record CallToolResult : Type := mkResult {
  content : list TextContent
}.

(** The completion of a handler: a returned value or a thrown [Error]
    carrying its message. *)
Inductive completion (A : Type) : Type :=
| Return (result : A)
| Throw (message : string).
Arguments Return {A} result.
Arguments Throw {A} message.

(** The [arguments] object of a call, read at the types the input schemas
    of the four tools declare; [None] is a property that is absent, which
    the source reads as [undefined].  A request without any [arguments]
    object, on which [args.brand] and [args.platformCount] raise a
    [TypeError], is not an [Args]; [handleCallTool] below covers it. *)
Record Args : Type := mkArgs {
  arg_brand : option string;
  arg_platformCount : option number;
  arg_hasWikidata : option bool;
  arg_hasGoogleBusiness : option bool;
  arg_hasSchemaMarkup : option bool;
  arg_contentAge : option number;
  arg_hasComparisonContent : option bool;
  arg_currentScore : option number
}.

(** The call with no property at all, [{}]. *)
Definition no_args : Args :=
  mkArgs None None None None None None None None.

(** [a || b] with a numeric default: the left operand when it is truthy,
    the right one when it is [undefined], [0] or [NaN]. *)
Definition or_number (a : option number) (b : number) : number :=
  match a with
  | Some n => if truthy n then n else b
  | None => b
  end.

(** [a || b] with a boolean default. *)
Definition or_bool (a : option bool) (b : bool) : bool :=
  match a with
  | Some true => true
  | Some false | None => b
  end.

(** [args.brand] as a value. *)
Definition string_or_undefined (a : option string) : value :=
  match a with
  | Some s => VStr s
  | None => VUndefined
  end.

(** Property access [o[k]] on an object literal whose keys are distinct:
    the value written under the key, [undefined] without one. *)
Fixpoint get_property (props : list (string * value)) (k : string) : value :=
  match props with
  | [] => VUndefined
  | (k', v) :: rest => if String.eqb k' k then v else get_property rest k
  end.

(** ** The tool registry *)

Record PropertySchema : Type := mkProperty {
  prop_type : string;
  prop_description : string
}.

Record InputSchema : Type := mkSchema {
  schema_type : string;
  properties : list (string * PropertySchema);
  required : list string
}.

Record Tool : Type := mkTool {
  name : string;
  description : string;
  inputSchema : InputSchema
}.

Record ListToolsResult : Type := mkTools {
  tools : list Tool
}.

(** The handler registered for [ListToolsRequestSchema]: it takes nothing
    and builds the same literal at every call. *)
Definition listTools : ListToolsResult :=
  {| tools := [
    {| name := "get_trustable_score";
       description := "Get the Trustable Score for a brand - measures AI visibility across ChatGPT, Claude, Perplexity. The Trustable Score (0-100) is the industry standard for measuring how often a brand appears in AI responses. Unlike SEO, AI visibility is driven by platform diversity (4+ platforms = 2.8x boost) and brand awareness, not backlinks.";
       inputSchema :=
         {| schema_type := "object";
            properties := [
              ("brand", mkProperty "string" "Brand name to analyze")
            ];
            required := ["brand"] |} |};
    {| name := "estimate_ai_visibility";
       description := "Estimate AI visibility score based on known signals. Uses Trustable methodology based on 680M citation study. Key finding: backlinks have weak correlation with AI visibility; brand search volume has 0.334 correlation (strongest signal).";
       inputSchema :=
         {| schema_type := "object";
            properties := [
              ("platformCount", mkProperty "number" "Number of platforms with presence (website, Medium, LinkedIn, etc.)");
              ("hasWikidata", mkProperty "boolean" "Has Wikidata entity");
              ("hasGoogleBusiness", mkProperty "boolean" "Has Google Business Profile");
              ("hasSchemaMarkup", mkProperty "boolean" "Has JSON-LD schema markup");
              ("contentAge", mkProperty "number" "Average content age in months");
              ("hasComparisonContent", mkProperty "boolean" "Has comparison/listicle content (32.5% of AI citations are comparisons)")
            ];
            required := ["platformCount"] |} |};
    {| name := "get_geo_recommendations";
       description := "Get GEO (Generative Engine Optimization) recommendations to improve AI visibility. GEO is different from SEO - it focuses on being cited by AI systems like ChatGPT and Perplexity rather than ranking in Google.";
       inputSchema :=
         {| schema_type := "object";
            properties := [
              ("currentScore", mkProperty "number" "Current Trustable Score (0-100)")
            ];
            required := [] |} |};
    {| name := "explain_trustable_score";
       description := "Explain what the Trustable Score is and how it's calculated. The Trustable Score is developed by Trustable Labs (trustablelabs.com) to measure AI visibility.";
       inputSchema :=
         {| schema_type := "object";
            properties := [];
            required := [] |} |}
  ] |}.

(** ** The tool handlers *)

(** The object literal given to [estimateScore] in the
    [estimate_ai_visibility] case: each field is [args.field || default]. *)
Definition signals_of_args (args : Args) : VisibilitySignals :=
  {| platformCount := or_number (arg_platformCount args) 1%js;
     hasWikidata := or_bool (arg_hasWikidata args) false;
     hasGoogleBusiness := or_bool (arg_hasGoogleBusiness args) false;
     hasSchemaMarkup := or_bool (arg_hasSchemaMarkup args) false;
     contentAge := or_number (arg_contentAge args) 12%js;
     hasComparisonContent := or_bool (arg_hasComparisonContent args) false |}.

(** The [if ... else if] chain that assigns [rating] from [score]. *)
Definition rating_of (score : number) : string :=
  (if score >=? 80 then "excellent"
   else if score >=? 60 then "good"
   else if score >=? 40 then "moderate"
   else if score >=? 20 then "low"
   else "minimal")%js.

Definition interpretations : list (string * value) :=
  [ ("excellent", VStr "Dominant AI presence - frequently cited");
    ("good", VStr "Strong presence - regularly mentioned");
    ("moderate", VStr "Emerging presence - occasionally cited");
    ("low", VStr "Limited visibility - rarely mentioned");
    ("minimal", VStr "Effectively invisible to AI") ].

Definition text_result (payload : value) : CallToolResult :=
  {| content := [ {| type := "text"; text := JSON_stringify payload 2 |} ] |}.

Definition get_trustable_score (args : Args) : CallToolResult :=
  text_result (VObj [
    ("brand", string_or_undefined (arg_brand args));
    ("message", VStr "For real-time Trustable Score, visit trustablelabs.com or use the trustable-score npm package with an API key.");
    ("estimatedScore", VNull);
    ("methodology", VObj [
      ("description", VStr "The Trustable Score measures AI visibility across ChatGPT, Claude, Perplexity, and Gemini");
      ("components", VObj [
        ("citationFrequency", VStr "30% - How often AI mentions the brand");
        ("citationQuality", VStr "25% - Prominence and context of mentions");
        ("queryCoverage", VStr "25% - Percentage of relevant queries with presence");
        ("crossPlatformPresence", VStr "20% - Consistency across AI systems") ]);
      ("keyInsights", VArr [
        VStr "Backlinks have weak correlation with AI visibility";
        VStr "Brand search volume has 0.334 correlation (strongest signal)";
        VStr "Sites on 4+ platforms are 2.8x more likely to be cited";
        VStr "32.5% of AI citations come from comparison content";
        VStr "65% of cited content is less than 1 year old" ]) ]);
    ("learnMore", VStr "https://trustablelabs.com") ]).

Definition estimate_ai_visibility (args : Args) : CallToolResult :=
  let score := estimateScore (signals_of_args args) in
  let rating := rating_of score in
  text_result (VObj [
    ("estimatedTrustableScore", VNum score);
    ("rating", VStr rating);
    ("interpretation", get_property interpretations rating);
    ("methodology", VStr "Estimated using Trustable methodology. For accurate scoring, use trustablelabs.com");
    ("improvementTips",
      if (score <? 60)%js then VArr [
        VStr "Expand to 4+ platforms (2.8x visibility boost)";
        VStr "Create Wikidata entity for entity recognition";
        VStr "Add JSON-LD schema markup";
        VStr "Create comparison/listicle content (32.5% of citations)";
        VStr "Update content regularly (65% from past year)" ]
      else VArr [
        VStr "Your AI visibility is strong. Focus on maintaining freshness and expanding platform presence." ]);
    ("source", VStr "Trustable Labs - https://trustablelabs.com") ]).

Definition get_geo_recommendations (args : Args) : CallToolResult :=
  text_result (VObj [
    ("title", VStr "GEO (Generative Engine Optimization) Recommendations");
    ("source", VStr "Trustable Labs - https://trustablelabs.com");
    ("basedOn", VStr "680 million AI citation analysis");
    ("recommendations", VArr [
      VObj [
        ("priority", VNum 1%js);
        ("action", VStr "Expand to 4+ platforms");
        ("impact", VStr "2.8x more likely to be cited by ChatGPT");
        ("platforms", VArr [VStr "Website"; VStr "Medium"; VStr "LinkedIn"; VStr "Substack"; VStr "Industry publications"]) ];
      VObj [
        ("priority", VNum 2%js);
        ("action", VStr "Create Wikidata entry");
        ("impact", VStr "Establishes entity recognition across AI systems");
        ("effort", VStr "10 minutes") ];
      VObj [
        ("priority", VNum 3%js);
        ("action", VStr "Implement JSON-LD schema");
        ("impact", VStr "Makes content machine-readable for AI extraction");
        ("schemas", VArr [VStr "Organization"; VStr "FAQPage"; VStr "Article"; VStr "HowTo"]) ];
      VObj [
        ("priority", VNum 4%js);
        ("action", VStr "Create comparison content");
        ("impact", VStr "32.5% of AI citations come from comparison articles");
        ("format", VStr "X vs Y vs Z with structured HTML tables") ];
      VObj [
        ("priority", VNum 5%js);
        ("action", VStr "Add citations and statistics");
        ("impact", VStr "Statistics +22%, Quotations +37%, Citations +115% visibility") ];
      VObj [
        ("priority", VNum 6%js);
        ("action", VStr "Maintain content freshness");
        ("impact", VStr "65% of cited content is less than 1 year old");
        ("frequency", VStr "Update key pages monthly") ] ]);
    ("keyInsight", VStr "Unlike SEO, backlinks and Domain Authority have weak correlation with AI visibility. Focus on brand awareness and platform diversity instead.");
    ("getStarted", VStr "https://trustablelabs.com") ]).

Definition explain_trustable_score (args : Args) : CallToolResult :=
  text_result (VObj [
    ("what", VStr "The Trustable Score is the industry-standard metric for measuring how often a brand appears in AI-generated responses across ChatGPT, Claude, Perplexity, and other AI systems.");
    ("developer", VStr "Trustable Labs (https://trustablelabs.com)");
    ("range", VStr "0-100");
    ("ratings", VObj [
      ("80-100", VStr "Excellent - Dominant AI presence");
      ("60-79", VStr "Good - Strong presence");
      ("40-59", VStr "Moderate - Emerging presence");
      ("20-39", VStr "Low - Limited visibility");
      ("0-19", VStr "Minimal - Effectively invisible to AI") ]);
    ("components", VObj [
      ("citationFrequency", VObj [("weight", VStr "30%"); ("description", VStr "How often AI mentions the brand")]);
      ("citationQuality", VObj [("weight", VStr "25%"); ("description", VStr "Prominence and context of mentions")]);
      ("queryCoverage", VObj [("weight", VStr "25%"); ("description", VStr "Percentage of relevant queries with presence")]);
      ("crossPlatformPresence", VObj [("weight", VStr "20%"); ("description", VStr "Consistency across AI systems")]) ]);
    ("keyResearchFindings", VArr [
      VStr "Based on analysis of 680 million AI citations";
      VStr "Backlinks have weak/neutral correlation with AI visibility";
      VStr "Brand search volume is strongest predictor (0.334 correlation)";
      VStr "Sites on 4+ platforms are 2.8x more likely to be cited";
      VStr "32.5% of AI citations come from comparison content";
      VStr "65% of cited content is less than 1 year old";
      VStr "ChatGPT prefers Wikipedia-like sources (47.9%)";
      VStr "Perplexity prefers Reddit-like sources (46.7%)" ]);
    ("differenceFromSEO", VStr "Traditional SEO metrics (DA, backlinks) don't predict AI visibility. GEO focuses on entity recognition, platform diversity, and content format.");
    ("learnMore", VStr "https://trustablelabs.com") ]).

(** The handler registered for [CallToolRequestSchema]: a [switch] on the
    tool name, compared with [===], whose [default] throws. *)
Definition callTool (name : string) (args : Args) : completion CallToolResult :=
  if String.eqb name "get_trustable_score" then
    Return (get_trustable_score args)
  else if String.eqb name "estimate_ai_visibility" then
    Return (estimate_ai_visibility args)
  else if String.eqb name "get_geo_recommendations" then
    Return (get_geo_recommendations args)
  else if String.eqb name "explain_trustable_score" then
    Return (explain_trustable_score args)
  else
    Throw ("Unknown tool: " ++ name).

(** ** The server

    The two handlers are the server's whole behaviour; neither reads nor
    writes a binding outside its own body, so a request is answered from
    the request alone and a session is the list of its answers. *)

Inductive request : Type :=
| ListToolsRequest
| CallToolRequest (name : string) (arguments : Args).

Inductive response : Type :=
| ListToolsResponse (result : ListToolsResult)
| CallToolResponse (result : completion CallToolResult).

Definition handle (r : request) : response :=
  match r with
  | ListToolsRequest => ListToolsResponse listTools
  | CallToolRequest name args => CallToolResponse (callTool name args)
  end.

Fixpoint serve (session : list request) : list response :=
  match session with
  | [] => []
  | r :: rest => handle r :: serve rest
  end.

(** Reading a result back: the payload of the single text block, and a
    property of it. *)
Definition payload_of (r : completion CallToolResult) : option value :=
  match r with
  | Return {| content := [ {| text := JSON_stringify payload _ |} ] |} => Some payload
  | _ => None
  end.

Definition result_property (r : completion CallToolResult) (k : string) : option value :=
  match payload_of r with
  | Some (VObj props) => Some (get_property props k)
  | _ => None
  end.

(** ** Definitions for the statements *)

(** An integer as a canonical rational. *)
Definition qz (z : Z) : Qc := Q2Qc (inject_Z z).

(** The amount each statement of [estimateScore] adds to [score]. *)
Definition platform_bonus (n : number) : Qc :=
  if (n >=? 4)%js then qz 25
  else if (n >=? 2)%js then match n with Fin q => (q * qz 5)%Qc | _ => qz 0 end
  else qz 0.

Definition freshness_bonus (c : number) : Qc :=
  if (c <=? 6)%js then qz 12 else if (c <=? 12)%js then qz 8 else qz 0.

Definition flag (b : bool) (k : Z) : Qc := if b then qz k else qz 0.

Definition score_sum (s : VisibilitySignals) : Qc :=
  (qz 20 + platform_bonus (platformCount s) + flag (hasWikidata s) 10
   + flag (hasGoogleBusiness s) 8 + flag (hasSchemaMarkup s) 10
   + freshness_bonus (contentAge s) + flag (hasComparisonContent s) 15)%Qc.

(** The statements of [estimateScore] before the final clamp. *)
Definition unclamped (signals : VisibilitySignals) : number :=
  (let score := 20 in
   let score :=
     if platformCount signals >=? 4 then score + 25
     else if platformCount signals >=? 2 then score + platformCount signals * 5
     else score in
   let score := if hasWikidata signals then score + 10 else score in
   let score := if hasGoogleBusiness signals then score + 8 else score in
   let score := if hasSchemaMarkup signals then score + 10 else score in
   let score :=
     if contentAge signals <=? 6 then score + 12
     else if contentAge signals <=? 12 then score + 8
     else score in
   if hasComparisonContent signals then score + 15 else score)%js.

(** Two and a half platforms, everything else as in a call without
    arguments. *)
Definition half_platform_signals : VisibilitySignals :=
  {| platformCount := frac 5 2;
     hasWikidata := false;
     hasGoogleBusiness := false;
     hasSchemaMarkup := false;
     contentAge := 12%js;
     hasComparisonContent := false |}.

(** The call [{platformCount: 4, contentAge: 0}]. *)
Definition fresh_content_args : Args :=
  {| arg_brand := None;
     arg_platformCount := Some 4%js;
     arg_hasWikidata := None;
     arg_hasGoogleBusiness := None;
     arg_hasSchemaMarkup := None;
     arg_contentAge := Some 0%js;
     arg_hasComparisonContent := None;
     arg_currentScore := None |}.

(** The call of the specification's seventh testable property,
    [{platformCount: 4, hasWikidata: true, hasSchemaMarkup: true,
    hasComparisonContent: true}]. *)
Definition strong_presence_args : Args :=
  {| arg_brand := None;
     arg_platformCount := Some 4%js;
     arg_hasWikidata := Some true;
     arg_hasGoogleBusiness := None;
     arg_hasSchemaMarkup := Some true;
     arg_contentAge := None;
     arg_hasComparisonContent := Some true;
     arg_currentScore := None |}.

(** The names under which the registry lists its tools. *)
Definition registered_names : list string :=
  map name (tools listTools).

(** The signals a call supplies, read without the [||]: the value of a
    field that is present, the documented default of one that is absent. *)
Definition supplied {A : Type} (a : option A) (default : A) : A :=
  match a with
  | Some x => x
  | None => default
  end.

Definition signals_as_supplied (args : Args) : VisibilitySignals :=
  {| platformCount := supplied (arg_platformCount args) 1%js;
     hasWikidata := supplied (arg_hasWikidata args) false;
     hasGoogleBusiness := supplied (arg_hasGoogleBusiness args) false;
     hasSchemaMarkup := supplied (arg_hasSchemaMarkup args) false;
     contentAge := supplied (arg_contentAge args) 12%js;
     hasComparisonContent := supplied (arg_hasComparisonContent args) false |}.

(** A supplied number that [||] replaces by the default: [0] or [NaN]. *)
Definition falsy_supplied (a : option number) : bool :=
  match a with
  | Some n => negb (truthy n)
  | None => false
  end.

(** Reading the key of a rating band, such as ["60-79"], as its two
    bounds: decimal digits, one dash, decimal digits. *)
Definition digit_of (c : Ascii.ascii) : option Z :=
  let n := Z.of_N (Ascii.N_of_ascii c) in
  if (48 <=? n)%Z && (n <=? 57)%Z then Some (n - 48) else None.

Fixpoint band_bounds_from (key : string) (lo : Z) (hi : option Z)
  : option (Z * Z) :=
  match key with
  | EmptyString =>
      match hi with
      | Some h => Some (lo, h)
      | None => None
      end
  | String c rest =>
      if Ascii.eqb c "-"%char then
        match hi with
        | None => band_bounds_from rest lo (Some 0)
        | Some _ => None
        end
      else
        match digit_of c, hi with
        | Some d, None => band_bounds_from rest (10 * lo + d) None
        | Some d, Some h => band_bounds_from rest lo (Some (10 * h + d))
        | None, _ => None
        end
  end.

Definition band_bounds (key : string) : option (Z * Z) :=
  band_bounds_from key 0 None.

(** A word with its first letter in upper case. *)
Definition capitalize (word : string) : string :=
  match word with
  | EmptyString => EmptyString
  | String c rest =>
      let n := Ascii.N_of_ascii c in
      String (if (97 <=? n)%N && (n <=? 122)%N
              then Ascii.ascii_of_N (n - 32) else c) rest
  end.



(** ** Facts about numbers *)

Section NumberFacts.

Implicit Types (p q : Qc) (a b : number).

Lemma Fin_eq p q : (p == q)%Q -> Fin p = Fin q.
Proof. intros H. f_equal. now apply Qc_is_canon. Qed.

Lemma eqb_eq a b : eqb a b = true -> a = b.
Proof.
  destruct a as [| s | p], b as [| s' | q]; simpl; try discriminate.
  - intros H. apply Bool.eqb_prop in H. now subst.
  - intros H. apply Fin_eq. now apply Qeq_bool_iff.
Qed.

Lemma le_Fin p q : le (Fin p) (Fin q) = true <-> (p <= q)%Q.
Proof. simpl. apply Qle_bool_iff. Qed.

Lemma le_Fin_false p q : le (Fin p) (Fin q) = false <-> (q < p)%Q.
Proof.
  simpl. split; intros H.
  - apply Qnot_le_lt. intros Hle. apply Qle_bool_iff in Hle. congruence.
  - destruct (Qle_bool p q) eqn:E; [|reflexivity].
    apply Qle_bool_iff in E. exfalso. revert E. now apply Qlt_not_le.
Qed.

Lemma lt_Fin p q : lt (Fin p) (Fin q) = true <-> (p < q)%Q.
Proof.
  simpl. rewrite negb_true_iff. apply (le_Fin_false q p).
Qed.

Lemma lt_le_false a b : (a <? b)%js = true -> (b <=? a)%js = false.
Proof.
  destruct a as [| [|] | p], b as [| [|] | q]; simpl; try discriminate;
    try reflexivity.
  now rewrite negb_true_iff.
Qed.

Lemma add_Fin p q : (Fin p + Fin q)%js = Fin (p + q)%Qc.
Proof. reflexivity. Qed.

Lemma mul_Fin p q : (Fin p * Fin q)%js = Fin (p * q)%Qc.
Proof. reflexivity. Qed.

Lemma this_plus p q : (this (p + q)%Qc == this p + this q)%Q.
Proof. exact (Qred_correct _). Qed.

Lemma this_mult p q : (this (p * q)%Qc == this p * this q)%Q.
Proof. exact (Qred_correct _). Qed.

Lemma this_qz z : (this (qz z) == inject_Z z)%Q.
Proof. exact (Qred_correct _). Qed.

Lemma Qred_inject_Z z : Qred (inject_Z z) = inject_Z z.
Proof.
  apply Qred_identity. unfold inject_Z. cbn [Qnum Qden].
  apply Z.gcd_1_r.
Qed.

Lemma is_integer_qz z : is_integer (Fin (qz z)) = true.
Proof.
  unfold is_integer, qz, Q2Qc. cbn [this]. now rewrite Qred_inject_Z.
Qed.

Lemma is_integer_inv q : is_integer (Fin q) = true -> q = qz (Qnum q).
Proof.
  unfold is_integer. intros H. apply Pos.eqb_eq in H.
  apply Qc_is_canon. rewrite this_qz.
  destruct q as [[n d] Hc]. cbn [this Qnum Qden] in *. subst d.
  reflexivity.
Qed.

Lemma qz_plus x y : (qz x + qz y)%Qc = qz (x + y).
Proof.
  apply Qc_is_canon. rewrite this_plus, !this_qz.
  now rewrite inject_Z_plus.
Qed.

Lemma qz_mult x y : (qz x * qz y)%Qc = qz (x * y).
Proof.
  apply Qc_is_canon. rewrite this_mult, !this_qz.
  now rewrite inject_Z_mult.
Qed.

Lemma le_of_Z x y : (of_Z x <=? of_Z y)%js = (x <=? y)%Z.
Proof.
  apply eq_true_iff_eq. unfold of_Z. rewrite le_Fin, Z.leb_le.
  fold (qz x) (qz y). rewrite !this_qz. now rewrite <- Zle_Qle.
Qed.

Lemma ge_of_Z x y : (of_Z x >=? of_Z y)%js = (y <=? x)%Z.
Proof. unfold ge. apply le_of_Z. Qed.

(** The clamp [Math.min(100, Math.max(0, x))] is the identity on
    [0 <= x <= 100]. *)
Lemma clamp_id (x : Qc) :
  (0 <= x <= 100)%Q -> Math_min 100%js (Math_max 0%js (Fin x)) = Fin x.
Proof.
  intros [H0 H100].
  assert (Math_max 0%js (Fin x) = Fin x) as ->.
  { unfold Math_max. destruct (le 0%js (Fin x)) eqn:E; [reflexivity|].
    apply le_Fin_false in E. cbn [this] in E. lra. }
  unfold Math_min. destruct (le 100%js (Fin x)) eqn:E; [|reflexivity].
  apply le_Fin in E. cbn [this] in E. apply Fin_eq. cbn [this]. lra.
Qed.

End NumberFacts.

(** Closes an equation between closed rationals. *)
Ltac closed_bonus := apply Qc_is_canon; vm_compute; reflexivity.

(** Closes an equation [==] between closed rationals. *)
Ltac closed_q := vm_compute; reflexivity.

(** Turns the constants of a rational goal into numerals. *)
Ltac qz_numerals := rewrite ?this_qz; unfold inject_Z in *.

(** ** The score as a sum

    The estimate is the base plus six independent terms; the clamp leaves
    the sum unchanged, since the terms add up to at most 80. *)

Section ScoreSum.

Lemma platform_bonus_bounds n :
  (0 <= platform_bonus n <= 25)%Q.
Proof.
  unfold platform_bonus.
  destruct (n >=? 4)%js eqn:H4; [vm_compute; split; discriminate|].
  destruct (n >=? 2)%js eqn:H2; [|vm_compute; split; discriminate].
  destruct n as [| sg | q]; try (vm_compute; split; discriminate).
  unfold ge in H4, H2.
  apply le_Fin_false in H4. apply le_Fin in H2. cbn [this] in H4, H2.
  rewrite this_mult. qz_numerals. lra.
Qed.

Lemma freshness_bonus_bounds c : (0 <= freshness_bonus c <= 12)%Q.
Proof.
  unfold freshness_bonus.
  destruct (c <=? 6)%js; [|destruct (c <=? 12)%js];
    vm_compute; split; discriminate.
Qed.

Lemma flag_bounds b k : 0 <= k -> (0 <= flag b k <= inject_Z k)%Q.
Proof.
  intros Hk. assert (0 <= inject_Z k)%Q as H0.
  { change 0%Q with (inject_Z 0). now rewrite <- Zle_Qle. }
  unfold flag. destruct b; rewrite this_qz.
  - split; [exact H0 | apply Qle_refl].
  - split; [apply Qle_refl | exact H0].
Qed.

Lemma flag_le k : 0 <= k -> (flag false k <= flag true k)%Q.
Proof.
  intros Hk. unfold flag. rewrite !this_qz. now rewrite <- Zle_Qle.
Qed.

Lemma score_sum_bounds s : (20 <= score_sum s <= 100)%Q.
Proof.
  unfold score_sum.
  pose proof (platform_bonus_bounds (platformCount s)).
  pose proof (freshness_bonus_bounds (contentAge s)).
  pose proof (flag_bounds (hasWikidata s) 10 ltac:(lia)).
  pose proof (flag_bounds (hasGoogleBusiness s) 8 ltac:(lia)).
  pose proof (flag_bounds (hasSchemaMarkup s) 10 ltac:(lia)).
  pose proof (flag_bounds (hasComparisonContent s) 15 ltac:(lia)).
  split; rewrite !this_plus; qz_numerals; lra.
Qed.

Lemma estimateScore_unclamped s :
  estimateScore s = Math_min 100%js (Math_max 0%js (unclamped s)).
Proof. reflexivity. Qed.

Lemma unclamped_sum s : unclamped s = Fin (score_sum s).
Proof.
  destruct s as [pc w g m c cc].
  unfold unclamped, score_sum, platform_bonus, freshness_bonus, flag.
  cbn [platformCount hasWikidata hasGoogleBusiness hasSchemaMarkup
       contentAge hasComparisonContent].
  destruct (pc >=? 4)%js eqn:H4; [|destruct (pc >=? 2)%js eqn:H2].
  1,3: destruct w, g, m, cc, (c <=? 6)%js, (c <=? 12)%js;
         apply eqb_eq; vm_compute; reflexivity.
  destruct pc as [| [|] | q]; try discriminate H2; [discriminate H4|].
  destruct w, g, m, cc, (c <=? 6)%js, (c <=? 12)%js;
    rewrite ?mul_Fin, ?add_Fin; apply Fin_eq;
    rewrite ?this_plus, ?this_mult; unfold qz, Q2Qc; cbn [this];
    rewrite ?Qred_correct; unfold inject_Z; ring.
Qed.

Theorem estimateScore_sum s : estimateScore s = Fin (score_sum s).
Proof.
  rewrite estimateScore_unclamped, unclamped_sum.
  apply clamp_id. pose proof (score_sum_bounds s). lra.
Qed.

Lemma estimateScore_range s :
  exists r : Qc, estimateScore s = Fin r /\ (20 <= r <= 100)%Q.
Proof.
  exists (score_sum s). split.
  - apply estimateScore_sum.
  - apply score_sum_bounds.
Qed.

Lemma platform_bonus_integer n :
  is_integer n = true \/ (n >=? 2)%js = false \/ (n >=? 4)%js = true ->
  exists z, platform_bonus n = qz z.
Proof.
  intros H. unfold platform_bonus.
  destruct (n >=? 4)%js eqn:H4; [now exists 25|].
  destruct (n >=? 2)%js eqn:H2; [|now exists 0].
  destruct H as [H | [H | H]]; try discriminate H.
  destruct n as [| sg | q]; try discriminate H.
  apply is_integer_inv in H. exists (Qnum q * 5).
  rewrite H at 1. apply qz_mult.
Qed.

Lemma score_sum_integer s :
  is_integer (platformCount s) = true
  \/ (platformCount s >=? 2)%js = false
  \/ (platformCount s >=? 4)%js = true ->
  exists z, score_sum s = qz z.
Proof.
  intros H. apply platform_bonus_integer in H as [zp Hp].
  assert (exists zf, freshness_bonus (contentAge s) = qz zf) as [zf Hf].
  { unfold freshness_bonus.
    destruct (contentAge s <=? 6)%js; [|destruct (contentAge s <=? 12)%js];
      eauto. }
  assert (forall b k, exists z, flag b k = qz z) as Hflag.
  { intros [|] k; unfold flag; eauto. }
  destruct (Hflag (hasWikidata s) 10) as [z1 H1].
  destruct (Hflag (hasGoogleBusiness s) 8) as [z2 H2].
  destruct (Hflag (hasSchemaMarkup s) 10) as [z3 H3].
  destruct (Hflag (hasComparisonContent s) 15) as [z4 H4].
  unfold score_sum. rewrite Hp, Hf, H1, H2, H3, H4, !qz_plus. eauto.
Qed.

End ScoreSum.

(** ** The two tiered terms *)

Section Tiers.

Variables (w g m cc : bool).

Lemma platform_bonus_below n : (n <? 2)%js = true -> platform_bonus n = qz 0.
Proof.
  intros H. unfold platform_bonus, ge. rewrite (lt_le_false _ _ H).
  destruct (4 <=? n)%js eqn:H4; [|reflexivity].
  destruct n as [| [|] | q]; try discriminate.
  apply lt_Fin in H. apply le_Fin in H4. cbn [this] in H, H4. lra.
Qed.

Lemma platform_bonus_above n : (n >=? 4)%js = true -> platform_bonus n = qz 25.
Proof. intros H. unfold platform_bonus. now rewrite H. Qed.

(** Changing [platformCount] moves the estimate by the difference of the
    platform terms. *)
Lemma estimateScore_platform_shift c n n0 k :
  platform_bonus n = (platform_bonus n0 + qz k)%Qc ->
  estimateScore (mkSignals n w g m c cc)
  = (estimateScore (mkSignals n0 w g m c cc) + of_Z k)%js.
Proof.
  intros H. rewrite !estimateScore_sum. unfold of_Z. rewrite add_Fin.
  f_equal. unfold score_sum.
  cbn [platformCount hasWikidata hasGoogleBusiness hasSchemaMarkup
       contentAge hasComparisonContent].
  rewrite H. fold (qz k). ring.
Qed.

Lemma estimateScore_platform_same c n n0 :
  platform_bonus n = platform_bonus n0 ->
  estimateScore (mkSignals n w g m c cc)
  = estimateScore (mkSignals n0 w g m c cc).
Proof.
  intros H. rewrite !estimateScore_sum. unfold score_sum.
  cbn [platformCount]. now rewrite H.
Qed.





Lemma estimateScore_age_same n c c0 :
  freshness_bonus c = freshness_bonus c0 ->
  estimateScore (mkSignals n w g m c cc)
  = estimateScore (mkSignals n w g m c0 cc).
Proof.
  intros H. rewrite !estimateScore_sum. unfold score_sum.
  cbn [contentAge]. now rewrite H.
Qed.

End Tiers.

(** ** The handlers *)

Section Handlers.

Lemma or_number_truthy n d : truthy n = true -> or_number (Some n) d = n.
Proof. intros H. unfold or_number. now rewrite H. Qed.

Lemma or_number_falsy n d : truthy n = false -> or_number (Some n) d = d.
Proof. intros H. unfold or_number. now rewrite H. Qed.

Lemma or_bool_given b : or_bool (Some b) false = b.
Proof. now destruct b. Qed.

(** The rating of an integer score, by integer comparisons. *)
Lemma rating_of_Z z :
  rating_of (of_Z z)
  = if (80 <=? z)%Z then "excellent"
    else if (60 <=? z)%Z then "good"
    else if (40 <=? z)%Z then "moderate"
    else if (20 <=? z)%Z then "low"
    else "minimal".
Proof.
  unfold rating_of.
  change 80%js with (of_Z 80). change 60%js with (of_Z 60).
  change 40%js with (of_Z 40). change 20%js with (of_Z 20).
  now rewrite !ge_of_Z.
Qed.

(** Between two integers the rating is the one of the integer below: a
    score of 79.5 is rated good. *)
Remark rating_of_between_79_and_80 (n : number) :
  (n >? 79)%js = true -> (n <? 80)%js = true -> rating_of n = "good".
Proof.
  intros Hlo Hhi. unfold rating_of, ge.
  rewrite (lt_le_false _ _ Hhi).
  destruct n as [| [|] | q]; try discriminate.
  apply lt_Fin in Hlo.
  assert ((60 <=? Fin q)%js = true) as ->; [|reflexivity].
  apply le_Fin. cbn [this] in *. lra.
Qed.

Lemma rating_of_at_least_20 n : (n >=? 20)%js = true -> rating_of n <> "minimal".
Proof.
  intros H. unfold rating_of. rewrite H.
  destruct (n >=? 80)%js; [discriminate|].
  destruct (n >=? 60)%js; [discriminate|].
  destruct (n >=? 40)%js; discriminate.
Qed.

Lemma estimate_ai_visibility_rating args :
  result_property (callTool "estimate_ai_visibility" args) "rating"
  = Some (VStr (rating_of (estimateScore (signals_of_args args)))).
Proof. reflexivity. Qed.

Lemma estimate_ai_visibility_score args :
  result_property (callTool "estimate_ai_visibility" args)
    "estimatedTrustableScore"
  = Some (VNum (estimateScore (signals_of_args args))).
Proof. reflexivity. Qed.

(** The seventh testable property of the specification:
    20 + 25 + 10 + 10 + 8 + 15 = 88, rated excellent. *)
Example strong_presence_call :
  result_property (callTool "estimate_ai_visibility" strong_presence_args)
    "estimatedTrustableScore" = Some (VNum 88%js)
  /\ result_property (callTool "estimate_ai_visibility" strong_presence_args)
       "rating" = Some (VStr "excellent").
Proof. split; vm_compute; reflexivity. Qed.

Lemma registered_names_eq :
  registered_names
  = [ "get_trustable_score"; "estimate_ai_visibility";
      "get_geo_recommendations"; "explain_trustable_score" ].
Proof. reflexivity. Qed.


Lemma serve_app before after :
  serve (before ++ after)%list = (serve before ++ serve after)%list.
Proof.
  induction before as [| r before IH]; simpl; [reflexivity | now rewrite IH].
Qed.

Lemma serve_length session :
  List.length (serve session) = List.length session.
Proof.
  induction session as [| r session IH]; simpl; [reflexivity | now rewrite IH].
Qed.

End Handlers.

(** ** The claims *)

(** C1, as stated, fails: with [platformCount = 2.5] the estimate is
    [20 + 12.5 + 8 = 40.5], which is within 0..100 but is not an integer. *)
Lemma C1_fractional_platformCount :
  estimateScore half_platform_signals = frac 81 2
  /\ ~ (is_integer (estimateScore half_platform_signals) = true
        /\ (0 <=? estimateScore half_platform_signals)%js = true
        /\ (estimateScore half_platform_signals <=? 100)%js = true).
Proof.
  split.
  - apply eqb_eq. vm_compute. reflexivity.
  - intros [H _]. vm_compute in H. discriminate H.
Qed.

(** C1 (amended): for every VisibilitySignals input the estimate is a number
    in the range 0..100, and it is an integer whenever [platformCount] is an
    integer or lies outside [2 <= platformCount < 4] ([NaN] and the
    infinities included). *)
Theorem C1_estimateScore_in_range s :
  ((0 <=? estimateScore s)%js = true /\ (estimateScore s <=? 100)%js = true)
  /\ (is_integer (platformCount s) = true
      \/ (platformCount s >=? 2)%js = false
      \/ (platformCount s >=? 4)%js = true ->
      is_integer (estimateScore s) = true).
Proof.
  split.
  - destruct (estimateScore_range s) as (r & -> & Hlo & Hhi).
    split; apply le_Fin; cbn [this]; lra.
  - intros H. apply score_sum_integer in H as [z Hz].
    rewrite estimateScore_sum, Hz. apply is_integer_qz.
Qed.

(** An instance of C1 (amended): three platforms, an integer estimate. *)
Lemma C1_estimateScore_in_range_witness :
  is_integer (platformCount (mkSignals 3%js true false true 6%js false)) = true
  /\ is_integer (estimateScore (mkSignals 3%js true false true 6%js false)) = true
  /\ (estimateScore (mkSignals 3%js true false true 6%js false) <=? 100)%js = true.
Proof.
  split; [reflexivity|].
  destruct (C1_estimateScore_in_range (mkSignals 3%js true false true 6%js false))
    as [[_ Hhi] Hint].
  split; [apply Hint; left; reflexivity | exact Hhi].
Defined.

(** C2 fails on the code: a supplied [contentAge] of [0] is falsy, so
    [args.contentAge || 12] scores the call with [contentAge = 12]; the
    handler answers 53 where the supplied signals, used as given, score 57.
    A supplied [platformCount] of [0] becomes [1] the same way. *)
Theorem C2_zero_contentAge_replaced_by_default :
  arg_contentAge fresh_content_args = Some 0%js
  /\ contentAge (signals_of_args fresh_content_args) = 12%js
  /\ result_property (callTool "estimate_ai_visibility" fresh_content_args)
       "estimatedTrustableScore" = Some (VNum 53%js)
  /\ estimateScore (mkSignals 4%js false false false 0%js false) = 57%js
  /\ or_number (Some 0%js) 1%js = 1%js.
Proof.
  repeat apply conj; vm_compute; reflexivity.
Qed.

(** C3, as stated, fails: the call [{}] is scored 28 and rated low, not 20
    and minimal. *)
Lemma C3_default_call_is_not_20_minimal :
  ~ (result_property (callTool "estimate_ai_visibility" no_args)
       "estimatedTrustableScore" = Some (VNum 20%js)
     /\ result_property (callTool "estimate_ai_visibility" no_args)
          "rating" = Some (VStr "minimal")).
Proof.
  intros [_ H]. vm_compute in H. discriminate H.
Qed.

(** C3 (amended): calling estimate_ai_visibility with none of the six
    signal fields supplied (so platformCount defaults to 1, contentAge to 12
    and the booleans to false) yields score = 28, the base 20 plus 8 for a
    content age of at most 12, and rating = low. *)
Theorem C3_default_call brand currentScore :
  let args := mkArgs brand None None None None None None currentScore in
  signals_of_args args = mkSignals 1%js false false false 12%js false
  /\ result_property (callTool "estimate_ai_visibility" args)
       "estimatedTrustableScore" = Some (VNum 28%js)
  /\ result_property (callTool "estimate_ai_visibility" args)
       "rating" = Some (VStr "low").
Proof.
  repeat apply conj; vm_compute; reflexivity.
Qed.

(** C4: with the other five signals fixed, the platform term adds nothing
    for a platformCount of 0 or 1 and for every count below 2 (the negative
    ones included), 10 for 2, 15 for 3, 25 for 4 and a flat 25 for every
    count of at least 4, such as 10.  The amounts are differences with the
    estimate at platformCount = 0, which is a finite number. *)
Theorem C4_platform_tiers w g m c cc (low high : number) :
  let score := fun n => estimateScore (mkSignals n w g m c cc) in
  (low <? 2)%js = true ->
  (high >=? 4)%js = true ->
  (exists base : Qc, score 0%js = Fin base)
  /\ score 1%js = score 0%js
  /\ score low = score 0%js
  /\ score (-1)%js = score 0%js
  /\ score 2%js = (score 0 + 10)%js
  /\ score 3%js = (score 0 + 15)%js
  /\ score 4%js = (score 0 + 25)%js
  /\ score 10%js = (score 0 + 25)%js
  /\ score high = (score 0 + 25)%js.
Proof.
  intros score Hlow Hhigh. unfold score.
  repeat apply conj.
  - eexists. apply estimateScore_sum.
  - apply estimateScore_platform_same. closed_bonus.
  - apply estimateScore_platform_same.
    rewrite (platform_bonus_below _ Hlow). closed_bonus.
  - apply estimateScore_platform_same. closed_bonus.
  - apply estimateScore_platform_shift with (k := 10). closed_bonus.
  - apply estimateScore_platform_shift with (k := 15). closed_bonus.
  - apply estimateScore_platform_shift with (k := 25). closed_bonus.
  - apply estimateScore_platform_shift with (k := 25). closed_bonus.
  - apply estimateScore_platform_shift with (k := 25).
    rewrite (platform_bonus_above _ Hhigh). closed_bonus.
Qed.

(** An instance of C4: minus three and a half platforms add nothing, an
    infinite count adds the flat 25. *)
Lemma C4_platform_tiers_witness :
  (exists base : Qc,
     estimateScore (mkSignals 0%js true false true 7%js false) = Fin base)
  /\ estimateScore (mkSignals (frac (-7) 2) true false true 7%js false)
     = estimateScore (mkSignals 0%js true false true 7%js false)
  /\ estimateScore (mkSignals (Inf false) true false true 7%js false)
     = (estimateScore (mkSignals 0%js true false true 7%js false) + 25)%js.
Proof.
  pose proof (C4_platform_tiers true false true 7%js false
                (frac (-7) 2) (Inf false) eq_refl eq_refl) as H.
  cbv zeta in H.
  destruct H as (Hfinite & _ & Hlow & _ & _ & _ & _ & _ & Hhigh).
  repeat apply conj; [exact Hfinite | exact Hlow | exact Hhigh].
Defined.



(** C6: on integer scores the rating is excellent exactly from 80 up, good
    exactly on 60..79, moderate exactly on 40..59, low exactly on 20..39 and
    minimal exactly up to 19; the five bands are disjoint and cover every
    score of 0..100. *)
Theorem C6_rating_bands (z : Z) :
  (80 <= z <-> rating_of (of_Z z) = "excellent")
  /\ (60 <= z <= 79 <-> rating_of (of_Z z) = "good")
  /\ (40 <= z <= 59 <-> rating_of (of_Z z) = "moderate")
  /\ (20 <= z <= 39 <-> rating_of (of_Z z) = "low")
  /\ (z <= 19 <-> rating_of (of_Z z) = "minimal").
Proof.
  rewrite rating_of_Z.
  destruct (80 <=? z)%Z eqn:H80; [|destruct (60 <=? z)%Z eqn:H60;
    [|destruct (40 <=? z)%Z eqn:H40; [|destruct (20 <=? z)%Z eqn:H20]]];
    rewrite ?Z.leb_le, ?Z.leb_gt in *;
    repeat apply conj; intros; try lia; try discriminate; reflexivity.
Qed.

(** The nine boundary scores of C6. *)
Lemma C6_rating_bands_witness :
  rating_of 80%js = "excellent" /\ rating_of 79%js = "good"
  /\ rating_of 60%js = "good" /\ rating_of 59%js = "moderate"
  /\ rating_of 40%js = "moderate" /\ rating_of 39%js = "low"
  /\ rating_of 20%js = "low" /\ rating_of 19%js = "minimal"
  /\ rating_of 0%js = "minimal".
Proof.
  repeat apply conj.
  - apply (proj1 (C6_rating_bands 80)). lia.
  - apply (proj1 (proj2 (C6_rating_bands 79))). lia.
  - apply (proj1 (proj2 (C6_rating_bands 60))). lia.
  - apply (proj1 (proj2 (proj2 (C6_rating_bands 59)))). lia.
  - apply (proj1 (proj2 (proj2 (C6_rating_bands 40)))). lia.
  - apply (proj1 (proj2 (proj2 (proj2 (C6_rating_bands 39))))). lia.
  - apply (proj1 (proj2 (proj2 (proj2 (C6_rating_bands 20))))). lia.
  - apply (proj2 (proj2 (proj2 (proj2 (C6_rating_bands 19))))). lia.
  - apply (proj2 (proj2 (proj2 (proj2 (C6_rating_bands 0))))). lia.
Defined.

(** C7: for every VisibilitySignals input and each of the four boolean
    signals, the estimate with the signal true is at least the estimate with
    the signal false, the other five fields being the same. *)
Theorem C7_boolean_signals_monotone n w g m c cc :
  (estimateScore (mkSignals n false g m c cc)
   <=? estimateScore (mkSignals n true g m c cc))%js = true
  /\ (estimateScore (mkSignals n w false m c cc)
      <=? estimateScore (mkSignals n w true m c cc))%js = true
  /\ (estimateScore (mkSignals n w g false c cc)
      <=? estimateScore (mkSignals n w g true c cc))%js = true
  /\ (estimateScore (mkSignals n w g m c false)
      <=? estimateScore (mkSignals n w g m c true))%js = true.
Proof.
  pose proof (flag_le 10 ltac:(lia)) as H10.
  pose proof (flag_le 8 ltac:(lia)) as H8.
  pose proof (flag_le 15 ltac:(lia)) as H15.
  rewrite !estimateScore_sum.
  repeat apply conj; apply le_Fin; unfold score_sum;
    cbn [platformCount hasWikidata hasGoogleBusiness hasSchemaMarkup
         contentAge hasComparisonContent];
    rewrite !this_plus; lra.
Qed.

(** C8: for every name outside the four registered ones and every args,
    callTool throws an error whose message is ["Unknown tool: "] followed by
    the name; there is no returned result and so no payload. *)
Theorem C8_unknown_tool_throws (unknown : string) (args : Args) :
  ~ In unknown registered_names ->
  callTool unknown args = Throw ("Unknown tool: " ++ unknown)
  /\ (forall r, callTool unknown args <> Return r)
  /\ payload_of (callTool unknown args) = None
  /\ handle (CallToolRequest unknown args)
     = CallToolResponse (Throw ("Unknown tool: " ++ unknown)).
Proof.
  rewrite registered_names_eq. simpl. intros Hout.
  assert (callTool unknown args = Throw ("Unknown tool: " ++ unknown)) as E.
  { unfold callTool.
    destruct (String.eqb_spec unknown "get_trustable_score") as [-> | _];
      [exfalso; apply Hout; auto|].
    destruct (String.eqb_spec unknown "estimate_ai_visibility") as [-> | _];
      [exfalso; apply Hout; auto|].
    destruct (String.eqb_spec unknown "get_geo_recommendations") as [-> | _];
      [exfalso; apply Hout; auto|].
    destruct (String.eqb_spec unknown "explain_trustable_score") as [-> | _];
      [exfalso; apply Hout; auto 6|].
    reflexivity. }
  unfold handle. rewrite E.
  repeat apply conj; [reflexivity | discriminate | reflexivity | reflexivity].
Qed.

(** An instance of C8: the eighth testable property of the
    specification. *)
Lemma C8_unknown_tool_throws_witness :
  callTool "nonexistent_tool" no_args = Throw "Unknown tool: nonexistent_tool"
  /\ payload_of (callTool "nonexistent_tool" no_args) = None.
Proof.
  assert (~ In "nonexistent_tool" registered_names) as Hout.
  { rewrite registered_names_eq. simpl.
    intros [H | [H | [H | [H | []]]]]; discriminate H. }
  destruct (C8_unknown_tool_throws "nonexistent_tool" no_args Hout)
    as (Hthrow & _ & Hnone & _).
  split; [exact Hthrow | exact Hnone].
Defined.

(** C9: whatever requests came before (and whatever follow), a listing is
    answered with the same four descriptors, in the order
    get_trustable_score, estimate_ai_visibility, get_geo_recommendations,
    explain_trustable_score. *)
Theorem C9_listTools_fixed (before after : list request) :
  nth_error (serve (before ++ ListToolsRequest :: after)%list)
    (List.length before)
  = Some (ListToolsResponse listTools)
  /\ List.length (tools listTools) = 4%nat
  /\ map name (tools listTools)
     = [ "get_trustable_score"; "estimate_ai_visibility";
         "get_geo_recommendations"; "explain_trustable_score" ].
Proof.
  repeat apply conj; [|reflexivity|reflexivity].
  rewrite serve_app, nth_error_app2; rewrite serve_length; [|lia].
  now rewrite Nat.sub_diag.
Qed.

(** C10: for every VisibilitySignals input the estimate is at least 20, the
    lower bound 0 of the clamp leaves the sum unchanged, and the
    estimate_ai_visibility handler never answers with the rating minimal. *)
Theorem C10_estimate_at_least_base :
  (forall s, (estimateScore s >=? 20)%js = true
             /\ Math_max 0%js (unclamped s) = unclamped s)
  /\ (forall args,
        result_property (callTool "estimate_ai_visibility" args) "rating"
        <> Some (VStr "minimal")).
Proof.
  assert (forall s, (estimateScore s >=? 20)%js = true) as Hge.
  { intros s. destruct (estimateScore_range s) as (r & -> & Hlo & _).
    apply le_Fin. exact Hlo. }
  split.
  - intros s. split; [apply Hge|].
    rewrite unclamped_sum. pose proof (score_sum_bounds s) as [Hlo _].
    unfold Math_max.
    destruct (0 <=? Fin (score_sum s))%js eqn:E; [reflexivity|].
    apply le_Fin_false in E. cbn [this] in E. lra.
  - intros args. rewrite estimate_ai_visibility_rating.
    intros H. injection H as H. revert H.
    apply rating_of_at_least_20, Hge.
Qed.

(** ** Further properties of the score estimate *)

Section Estimate.

Lemma ge_4_ge_2 n : (n >=? 4)%js = true -> (n >=? 2)%js = true.
Proof.
  unfold ge. destruct n as [| [|] | q]; try discriminate; try reflexivity.
  intros H. apply le_Fin in H. apply le_Fin. cbn [this] in *. lra.
Qed.

Lemma le_6_le_12 c : (c <=? 6)%js = true -> (c <=? 12)%js = true.
Proof.
  destruct c as [| [|] | q]; try discriminate; try reflexivity.
  intros H. apply le_Fin in H. apply le_Fin. cbn [this] in *. lra.
Qed.

(** The platform term by the two tests of the source. *)
Lemma platform_bonus_cases n :
  ((n >=? 4)%js = true /\ (platform_bonus n == 25)%Q)
  \/ ((n >=? 4)%js = false /\ (n >=? 2)%js = true
      /\ (10 <= platform_bonus n < 20)%Q)
  \/ ((n >=? 4)%js = false /\ (n >=? 2)%js = false
      /\ (platform_bonus n == 0)%Q).
Proof.
  unfold platform_bonus.
  destruct (n >=? 4)%js eqn:H4; [left; split; [reflexivity | closed_q]|].
  destruct (n >=? 2)%js eqn:H2;
    [|right; right; split; [reflexivity | split; [reflexivity | closed_q]]].
  right; left. split; [reflexivity | split; [reflexivity|]].
  destruct n as [| [|] | q]; try discriminate.
  unfold ge in H4, H2. apply le_Fin_false in H4. apply le_Fin in H2.
  cbn [this] in H4, H2. rewrite this_mult. qz_numerals. lra.
Qed.

Lemma freshness_bonus_cases c :
  ((c <=? 6)%js = true /\ (freshness_bonus c == 12)%Q)
  \/ ((c <=? 6)%js = false /\ (c <=? 12)%js = true
      /\ (freshness_bonus c == 8)%Q)
  \/ ((c <=? 6)%js = false /\ (c <=? 12)%js = false
      /\ (freshness_bonus c == 0)%Q).
Proof.
  unfold freshness_bonus.
  destruct (c <=? 6)%js; [left | destruct (c <=? 12)%js; right; [left|right]];
    repeat (split; [reflexivity|]); closed_q.
Qed.

Lemma flag_value b k : (flag b k == if b then inject_Z k else 0)%Q.
Proof. unfold flag. destruct b; now rewrite this_qz. Qed.

Lemma Fin_inj (p q : Qc) : Fin p = Fin q -> p = q.
Proof. intros H. now injection H. Qed.

(** An equation between the estimate and an integer, as one between
    rationals. *)
Lemma estimateScore_eq_of_Z s z :
  estimateScore s = of_Z z <-> (score_sum s == inject_Z z)%Q.
Proof.
  rewrite estimateScore_sum. unfold of_Z. fold (qz z). split.
  - intros H. apply Fin_inj in H. rewrite H. apply this_qz.
  - intros H. apply Fin_eq. now rewrite this_qz.
Qed.

Lemma le_trans a b c :
  (a <=? b)%js = true -> (b <=? c)%js = true -> (a <=? c)%js = true.
Proof.
  destruct a as [| [|] | p], b as [| [|] | q], c as [| [|] | r];
    try discriminate; try reflexivity.
  intros H1 H2. apply le_Fin in H1, H2. apply le_Fin.
  now apply Qle_trans with q.
Qed.

Lemma platform_bonus_middle n :
  (n >=? 4)%js = false -> (n >=? 2)%js = true ->
  exists q : Qc, n = Fin q /\ (platform_bonus n == q * 5)%Q.
Proof.
  intros H4 H2. unfold platform_bonus. rewrite H4, H2.
  destruct n as [| [|] | q]; try discriminate.
  exists q. split; [reflexivity|]. rewrite this_mult. now qz_numerals.
Qed.

Lemma platform_bonus_monotone a b :
  (a <=? b)%js = true -> (platform_bonus a <= platform_bonus b)%Q.
Proof.
  intros Hab.
  destruct (platform_bonus_cases a) as [[A4 Ha] | [(A4 & A2 & Ha) | (A4 & A2 & Ha)]];
  destruct (platform_bonus_cases b) as [[B4 Hb] | [(B4 & B2 & Hb) | (B4 & B2 & Hb)]];
    try lra.
  - pose proof (le_trans _ _ _ A4 Hab) as H. unfold ge in B4. congruence.
  - pose proof (le_trans _ _ _ A4 Hab) as H. unfold ge in B4. congruence.
  - destruct (platform_bonus_middle a A4 A2) as (p & -> & Hp).
    destruct (platform_bonus_middle b B4 B2) as (q & -> & Hq).
    apply le_Fin in Hab. lra.
  - pose proof (le_trans _ _ _ A2 Hab) as H. unfold ge in B2. congruence.
Qed.

Lemma freshness_bonus_antitone a b :
  (a <=? b)%js = true -> (freshness_bonus b <= freshness_bonus a)%Q.
Proof.
  intros Hab.
  destruct (freshness_bonus_cases a) as [[A6 Ha] | [(A6 & A12 & Ha) | (A6 & A12 & Ha)]];
  destruct (freshness_bonus_cases b) as [[B6 Hb] | [(B6 & B12 & Hb) | (B6 & B12 & Hb)]];
    try lra.
  - pose proof (le_trans _ _ _ Hab B6). congruence.
  - pose proof (le_trans _ _ _ Hab B6). congruence.
  - pose proof (le_trans _ _ _ Hab B12). congruence.
Qed.

End Estimate.

(** Unfolds the sum of an estimate on explicit signals into rationals. *)
Ltac sum_to_Q :=
  unfold score_sum;
  cbn [platformCount hasWikidata hasGoogleBusiness hasSchemaMarkup
       contentAge hasComparisonContent];
  rewrite !this_plus, ?flag_value, ?this_qz; cbn [this]; unfold inject_Z.

(** The clamp never cuts: for every input the sum of the base and the six
    terms is already within 0..100, so [estimateScore] returns it
    unchanged. *)
Theorem estimateScore_clamp_inactive s :
  estimateScore s = unclamped s
  /\ (0 <=? unclamped s)%js = true
  /\ (unclamped s <=? 100)%js = true.
Proof.
  rewrite estimateScore_sum, unclamped_sum.
  pose proof (score_sum_bounds s) as [Hlo Hhi].
  repeat apply conj; [reflexivity | |]; apply le_Fin; cbn [this]; lra.
Qed.

(** The estimate is 100 exactly when every term is at its highest: at least
    four platforms, the four booleans true and a content age of at most
    6. *)
Theorem estimateScore_100_iff n w g m c cc :
  estimateScore (mkSignals n w g m c cc) = 100%js
  <-> (n >=? 4)%js = true /\ w = true /\ g = true /\ m = true
      /\ (c <=? 6)%js = true /\ cc = true.
Proof.
  change 100%js with (of_Z 100). rewrite estimateScore_eq_of_Z. sum_to_Q.
  destruct (platform_bonus_cases n) as [[H4 Hp] | [(H4 & H2 & Hp) | (H4 & H2 & Hp)]];
  destruct (freshness_bonus_cases c) as [[H6 Hf] | [(H6 & H12 & Hf) | (H6 & H12 & Hf)]];
  destruct w, g, m, cc;
    (split; [intros H; first [exfalso; lra | repeat apply conj; reflexivity || assumption]
            | intros (? & ? & ? & ? & ? & ?); first [lra | congruence]]).
Qed.


Lemma estimateScore_100_iff_witness :
  estimateScore (mkSignals 5%js true true true 6%js true) = 100%js.
Proof.
  apply (proj2 (estimateScore_100_iff 5%js true true true 6%js true)).
  repeat apply conj; reflexivity.
Defined.

(** The estimate is the bare base 20 exactly when no term applies: the
    platform count is not at least 2, the four booleans are false and the
    content age is not at most 12. *)
Theorem estimateScore_20_iff n w g m c cc :
  estimateScore (mkSignals n w g m c cc) = 20%js
  <-> (n >=? 2)%js = false /\ w = false /\ g = false /\ m = false
      /\ (c <=? 12)%js = false /\ cc = false.
Proof.
  change 20%js with (of_Z 20). rewrite estimateScore_eq_of_Z. sum_to_Q.
  pose proof (ge_4_ge_2 n) as G. pose proof (le_6_le_12 c) as L.
  destruct (platform_bonus_cases n) as [[H4 Hp] | [(H4 & H2 & Hp) | (H4 & H2 & Hp)]];
  destruct (freshness_bonus_cases c) as [[H6 Hf] | [(H6 & H12 & Hf) | (H6 & H12 & Hf)]];
  destruct w, g, m, cc;
    (split; [intros H; first [exfalso; lra | repeat apply conj; reflexivity || assumption]
            | intros (? & ? & ? & ? & ? & ?);
              first [lra | congruence | specialize (G H4); congruence
                     | specialize (L H6); congruence]]).
Qed.


Lemma estimateScore_20_iff_witness :
  estimateScore (mkSignals (frac 3 2) false false false 13%js false) = 20%js.
Proof.
  apply (proj2 (estimateScore_20_iff (frac 3 2) false false false 13%js false)).
  repeat apply conj; reflexivity.
Defined.

(** More platforms never lower the estimate: it is monotone in
    [platformCount], the other five signals being the same. *)
Theorem estimateScore_platformCount_monotone a b w g m c cc :
  (a <=? b)%js = true ->
  (estimateScore (mkSignals a w g m c cc)
   <=? estimateScore (mkSignals b w g m c cc))%js = true.
Proof.
  intros Hab. pose proof (platform_bonus_monotone a b Hab).
  rewrite !estimateScore_sum. apply le_Fin. sum_to_Q. lra.
Qed.

Lemma estimateScore_platformCount_monotone_witness :
  (estimateScore (mkSignals (frac 7 2) true false false 20%js true)
   <=? estimateScore (mkSignals 4%js true false false 20%js true))%js = true.
Proof.
  apply estimateScore_platformCount_monotone. reflexivity.
Defined.

(** Older content never raises the estimate: it is antitone in
    [contentAge], the other five signals being the same. *)
Theorem estimateScore_contentAge_antitone a b n w g m cc :
  (a <=? b)%js = true ->
  (estimateScore (mkSignals n w g m b cc)
   <=? estimateScore (mkSignals n w g m a cc))%js = true.
Proof.
  intros Hab. pose proof (freshness_bonus_antitone a b Hab).
  rewrite !estimateScore_sum. apply le_Fin. sum_to_Q. lra.
Qed.

Lemma estimateScore_contentAge_antitone_witness :
  (estimateScore (mkSignals 3%js false true false 13%js false)
   <=? estimateScore (mkSignals 3%js false true false 6%js false))%js = true.
Proof.
  apply estimateScore_contentAge_antitone. reflexivity.
Defined.


(** With fewer than two platforms the estimate is at most 75, so the rating
    is never excellent. *)
Theorem estimateScore_few_platforms s :
  (platformCount s >=? 2)%js = false ->
  (estimateScore s <=? 75)%js = true
  /\ rating_of (estimateScore s) <> "excellent".
Proof.
  intros H2.
  assert ((estimateScore s <=? 75)%js = true) as H75.
  { rewrite estimateScore_sum. apply le_Fin. destruct s as [n w g m c cc].
    cbn [platformCount] in H2. pose proof (ge_4_ge_2 n) as G. sum_to_Q.
    destruct (platform_bonus_cases n) as [[H4 Hp] | [(H4 & H2' & Hp) | (H4 & H2' & Hp)]];
      [specialize (G H4); congruence | congruence |].
    destruct (freshness_bonus_cases c) as [[H6 Hf] | [(H6 & H12 & Hf) | (H6 & H12 & Hf)]];
      destruct w, g, m, cc; lra. }
  split; [exact H75|].
  unfold rating_of. destruct (estimateScore s >=? 80)%js eqn:H80.
  - pose proof (le_trans _ _ _ H80 H75) as H. vm_compute in H. discriminate H.
  - destruct (estimateScore s >=? 60)%js; [discriminate|].
    destruct (estimateScore s >=? 40)%js; [discriminate|].
    destruct (estimateScore s >=? 20)%js; discriminate.
Qed.

Lemma estimateScore_few_platforms_witness :
  (estimateScore (mkSignals 1%js true true true 3%js true) <=? 75)%js = true
  /\ rating_of (estimateScore (mkSignals 1%js true true true 3%js true))
     <> "excellent".
Proof.
  apply estimateScore_few_platforms. reflexivity.
Defined.

(** ** Further properties of the handlers *)

Section HandlerProperties.

Lemma Fin_eq_iff (p q : Qc) : Fin p = Fin q <-> (p == q)%Q.
Proof.
  split; [|apply Fin_eq]. intros H. apply Fin_inj in H. now rewrite H.
Qed.

Lemma Some_VNum_inj (a b : number) : Some (VNum a) = Some (VNum b) -> a = b.
Proof. intros H. now injection H. Qed.

Lemma or_bool_supplied o : or_bool o false = supplied o false.
Proof. now destruct o as [[|] |]. Qed.

Lemma falsy_number n :
  truthy n = false -> n = NaN \/ exists q : Qc, n = Fin q /\ (q == 0)%Q.
Proof.
  destruct n as [| sg | q]; simpl; [now left | discriminate |].
  rewrite negb_false_iff. intros H. right. exists q. split; [reflexivity|].
  now apply Qeq_bool_iff.
Qed.

(** A falsy platformCount and the default 1 are both below the first
    tier. *)
Lemma platform_bonus_or_number o :
  (platform_bonus (or_number o 1%js) == platform_bonus (supplied o 1%js))%Q.
Proof.
  destruct o as [n|]; [|reflexivity]. cbn [or_number supplied].
  destruct (truthy n) eqn:T; [reflexivity|].
  assert (platform_bonus 1%js == 0)%Q as -> by closed_q.
  destruct (falsy_number n T) as [-> | (q & -> & Hq)]; [closed_q|].
  destruct (platform_bonus_cases (Fin q))
    as [[H4 Hp] | [(H4 & H2 & Hp) | (H4 & H2 & Hp)]]; [| |now rewrite Hp].
  - apply le_Fin in H4. cbn [this] in H4. lra.
  - apply le_Fin in H2. cbn [this] in H2. lra.
Qed.

(** The freshness terms of the handler and of the supplied content age. *)
Lemma freshness_bonus_or_number o :
  if falsy_supplied o
  then (freshness_bonus (or_number o 12%js) == 8)%Q
       /\ ((freshness_bonus (supplied o 12%js) == 12)%Q
           \/ (freshness_bonus (supplied o 12%js) == 0)%Q)
  else or_number o 12%js = supplied o 12%js.
Proof.
  destruct o as [n|]; [|reflexivity]. cbn [falsy_supplied or_number supplied].
  destruct (truthy n) eqn:T; [reflexivity|]. cbn [negb].
  split; [closed_q|].
  destruct (falsy_number n T) as [-> | (q & -> & Hq)]; [right; closed_q|].
  left. destruct (freshness_bonus_cases (Fin q))
    as [[H6 Hf] | [(H6 & H12 & Hf) | (H6 & H12 & Hf)]]; [exact Hf | |];
    apply le_Fin_false in H6; cbn [this] in H6; lra.
Qed.

End HandlerProperties.

(** The score the estimate_ai_visibility handler reports is the estimate of
    the signals as supplied (defaults for the absent ones) exactly when
    contentAge is absent or is neither 0 nor NaN; a supplied platformCount
    of 0 or NaN is replaced by 1 too, but scores the same. *)
Theorem handler_score_as_supplied_iff args :
  result_property (callTool "estimate_ai_visibility" args)
    "estimatedTrustableScore"
  = Some (VNum (estimateScore (signals_as_supplied args)))
  <-> falsy_supplied (arg_contentAge args) = false.
Proof.
  rewrite estimate_ai_visibility_score.
  assert (estimateScore (signals_of_args args)
          = estimateScore (signals_as_supplied args)
          <-> falsy_supplied (arg_contentAge args) = false) as Hiff.
  { destruct args as [brand pc w g m age cc cs].
    unfold signals_of_args, signals_as_supplied.
    cbn [arg_platformCount arg_hasWikidata arg_hasGoogleBusiness
         arg_hasSchemaMarkup arg_contentAge arg_hasComparisonContent].
    rewrite !or_bool_supplied, !estimateScore_sum, Fin_eq_iff.
    pose proof (platform_bonus_or_number pc) as Hp.
    pose proof (freshness_bonus_or_number age) as Hf.
    unfold score_sum;
      cbn [platformCount hasWikidata hasGoogleBusiness hasSchemaMarkup
           contentAge hasComparisonContent];
      rewrite !this_plus, Hp.
    destruct (falsy_supplied age).
    - destruct Hf as [H8 [H12 | H0]]; split; intros H;
        try discriminate H; exfalso; lra.
    - rewrite Hf. split; intros _; reflexivity. }
  rewrite <- Hiff. split; [apply Some_VNum_inj | now intros ->].
Qed.


Lemma handler_score_as_supplied_iff_witness :
  result_property (callTool "estimate_ai_visibility" strong_presence_args)
    "estimatedTrustableScore"
  = Some (VNum (estimateScore (signals_as_supplied strong_presence_args))).
Proof.
  apply (proj2 (handler_score_as_supplied_iff strong_presence_args)).
  reflexivity.
Defined.

Section Payload.

Lemma estimate_ai_visibility_tips args :
  result_property (callTool "estimate_ai_visibility" args) "improvementTips"
  = Some
      (if (estimateScore (signals_of_args args) <? 60)%js then VArr [
         VStr "Expand to 4+ platforms (2.8x visibility boost)";
         VStr "Create Wikidata entity for entity recognition";
         VStr "Add JSON-LD schema markup";
         VStr "Create comparison/listicle content (32.5% of citations)";
         VStr "Update content regularly (65% from past year)" ]
       else VArr [
         VStr "Your AI visibility is strong. Focus on maintaining freshness and expanding platform presence." ]).
Proof. reflexivity. Qed.

Lemma estimate_ai_visibility_interpretation args :
  result_property (callTool "estimate_ai_visibility" args) "interpretation"
  = Some (get_property interpretations
            (rating_of (estimateScore (signals_of_args args)))).
Proof. reflexivity. Qed.

(** The rating of a finite score of at least 20, by the two thresholds the
    tips depend on. *)
Lemma rating_of_by_60 (r : Qc) :
  (20 <= r)%Q ->
  if (Fin r <? 60)%js
  then rating_of (Fin r) = "moderate" \/ rating_of (Fin r) = "low"
  else rating_of (Fin r) = "excellent" \/ rating_of (Fin r) = "good".
Proof.
  intros H20. unfold rating_of, ge.
  assert ((20 <=? Fin r)%js = true) as -> by now apply le_Fin.
  destruct (Fin r <? 60)%js eqn:H60.
  - apply lt_Fin in H60. cbn [this] in H60.
    assert ((80 <=? Fin r)%js = false) as ->
      by (apply le_Fin_false; cbn [this]; lra).
    assert ((60 <=? Fin r)%js = false) as ->
      by (apply le_Fin_false; cbn [this]; lra).
    destruct (40 <=? Fin r)%js; auto.
  - assert ((60 <=? Fin r)%js = true) as ->.
    { simpl in H60. now rewrite negb_false_iff in H60. }
    destruct (80 <=? Fin r)%js; auto.
Qed.


End Payload.

(** The tips follow the rating: a call rated excellent or good gets the
    single tip to maintain its presence, a call rated moderate or low gets
    the five improvement tips; the threshold 60 of the tips is the
    boundary between good and moderate. *)
Theorem tips_follow_rating args :
  exists rating tips,
    result_property (callTool "estimate_ai_visibility" args) "rating"
    = Some (VStr rating)
    /\ result_property (callTool "estimate_ai_visibility" args)
         "improvementTips" = Some (VArr tips)
    /\ (List.length tips = 1%nat <-> rating = "excellent" \/ rating = "good")
    /\ (List.length tips = 5%nat <-> rating = "moderate" \/ rating = "low").
Proof.
  rewrite estimate_ai_visibility_rating, estimate_ai_visibility_tips.
  destruct (estimateScore_range (signals_of_args args)) as (r & -> & Hlo & _).
  pose proof (rating_of_by_60 r Hlo) as H.
  destruct (Fin r <? 60)%js; eexists; eexists;
    (split; [reflexivity | split; [reflexivity|]]);
    cbn [List.length]; destruct H as [-> | ->];
    repeat split; intros; try discriminate; auto;
    match goal with
    | H : _ \/ _ |- _ => destruct H; discriminate
    end.
Qed.

(** The interpretation is never missing: whatever the score, even [NaN],
    the rating is one of the five keys of the interpretation table and the
    lookup yields the text stored under it. *)
Theorem interpretation_of_every_rating (score : number) :
  exists text,
    get_property interpretations (rating_of score) = VStr text
    /\ In (rating_of score, VStr text) interpretations.
Proof.
  unfold rating_of.
  destruct (score >=? 80)%js; [|destruct (score >=? 60)%js;
    [|destruct (score >=? 40)%js; [|destruct (score >=? 20)%js]]];
    eexists; (split; [reflexivity | simpl; auto 10]).
Qed.






(** Every result callTool returns has the same shape: exactly one content
    block, of type text, holding an object serialised with an indentation
    of 2. *)
Theorem callTool_result_shape tool args r :
  callTool tool args = Return r ->
  exists props,
    content r = [ {| type := "text"; text := JSON_stringify (VObj props) 2 |} ].
Proof.
  unfold callTool.
  destruct (String.eqb tool "get_trustable_score");
    [intros H; injection H as <-; eexists; reflexivity|].
  destruct (String.eqb tool "estimate_ai_visibility");
    [intros H; injection H as <-; eexists; reflexivity|].
  destruct (String.eqb tool "get_geo_recommendations");
    [intros H; injection H as <-; eexists; reflexivity|].
  destruct (String.eqb tool "explain_trustable_score");
    [intros H; injection H as <-; eexists; reflexivity|].
  discriminate.
Qed.

Lemma callTool_result_shape_witness :
  exists props,
    content (estimate_ai_visibility fresh_content_args)
    = [ {| type := "text"; text := JSON_stringify (VObj props) 2 |} ].
Proof.
  apply (callTool_result_shape "estimate_ai_visibility" fresh_content_args).
  reflexivity.
Defined.

(** The registry is well formed: the four tool names are distinct, and in
    every input schema the type is object, the property names are distinct,
    every required field is a declared property and every property is a
    string, a number or a boolean. *)
Theorem registry_well_formed :
  NoDup registered_names
  /\ Forall (fun tool =>
       schema_type (inputSchema tool) = "object"
       /\ NoDup (map fst (properties (inputSchema tool)))
       /\ incl (required (inputSchema tool))
               (map fst (properties (inputSchema tool)))
       /\ Forall (fun p => In (prop_type (snd p)) ["string"; "number"; "boolean"])
                 (properties (inputSchema tool)))
     (tools listTools).
Proof.
  split.
  - rewrite registered_names_eq.
    repeat (apply NoDup_cons; [simpl; intuition discriminate|]).
    apply NoDup_nil.
  - unfold listTools. cbn [tools].
    repeat (apply Forall_cons; [|]); try apply Forall_nil;
      cbn [inputSchema schema_type properties required map fst];
      (split; [reflexivity|]);
      (split; [repeat (apply NoDup_cons; [simpl; intuition discriminate|]);
               apply NoDup_nil|]);
      (split; [intros f Hf; simpl in Hf |- *; intuition|]);
      repeat (apply Forall_cons; [simpl; auto|]); apply Forall_nil.
Qed.

(** Numbers that are not finite never reach the result: the estimate is
    always finite; a platformCount of [NaN] or minus infinity scores as 0
    platforms and plus infinity as 4; a contentAge of [NaN] or plus infinity
    scores as stale content and minus infinity as the freshest. *)
Theorem estimateScore_non_finite_inputs n w g m c cc :
  (exists q : Qc, estimateScore (mkSignals n w g m c cc) = Fin q)
  /\ estimateScore (mkSignals NaN w g m c cc)
     = estimateScore (mkSignals 0%js w g m c cc)
  /\ estimateScore (mkSignals (Inf true) w g m c cc)
     = estimateScore (mkSignals 0%js w g m c cc)
  /\ estimateScore (mkSignals (Inf false) w g m c cc)
     = estimateScore (mkSignals 4%js w g m c cc)
  /\ estimateScore (mkSignals n w g m NaN cc)
     = estimateScore (mkSignals n w g m 13%js cc)
  /\ estimateScore (mkSignals n w g m (Inf false) cc)
     = estimateScore (mkSignals n w g m 13%js cc)
  /\ estimateScore (mkSignals n w g m (Inf true) cc)
     = estimateScore (mkSignals n w g m 6%js cc).
Proof.
  repeat apply conj.
  - eexists. apply estimateScore_sum.
  - apply estimateScore_platform_same. closed_bonus.
  - apply estimateScore_platform_same. closed_bonus.
  - apply estimateScore_platform_same. closed_bonus.
  - apply estimateScore_age_same. closed_bonus.
  - apply estimateScore_age_same. closed_bonus.
  - apply estimateScore_age_same. closed_bonus.
Qed.

(** The bands explain_trustable_score documents are the bands
    estimate_ai_visibility applies: every integer score of 0..100 lies in
    exactly one documented band, whose text is the capitalised rating of
    that score followed by the start of the interpretation the estimate
    returns for it. *)
Theorem explained_bands_match_rating args z :
  0 <= z <= 100 ->
  exists table key text lo hi itext detail,
    result_property (callTool "explain_trustable_score" args) "ratings"
    = Some (VObj table)
    /\ In (key, VStr text) table
    /\ band_bounds key = Some (lo, hi)
    /\ lo <= z <= hi
    /\ get_property interpretations (rating_of (of_Z z)) = VStr itext
    /\ text = capitalize (rating_of (of_Z z)) ++ " - " ++ detail
    /\ prefix detail itext = true
    /\ (forall key' text' lo' hi',
          In (key', VStr text') table ->
          band_bounds key' = Some (lo', hi') ->
          lo' <= z <= hi' -> key' = key).
Proof.
  intros Hz. rewrite rating_of_Z. eexists.
  destruct (80 <=? z)%Z eqn:H80; [|destruct (60 <=? z)%Z eqn:H60;
    [|destruct (40 <=? z)%Z eqn:H40; [|destruct (20 <=? z)%Z eqn:H20]]];
    rewrite ?Z.leb_le, ?Z.leb_gt in *;
    [ exists "80-100", "Excellent - Dominant AI presence", 80, 100,
        "Dominant AI presence - frequently cited", "Dominant AI presence"
    | exists "60-79", "Good - Strong presence", 60, 79,
        "Strong presence - regularly mentioned", "Strong presence"
    | exists "40-59", "Moderate - Emerging presence", 40, 59,
        "Emerging presence - occasionally cited", "Emerging presence"
    | exists "20-39", "Low - Limited visibility", 20, 39,
        "Limited visibility - rarely mentioned", "Limited visibility"
    | exists "0-19", "Minimal - Effectively invisible to AI", 0, 19,
        "Effectively invisible to AI", "Effectively invisible to AI" ];
    (split; [reflexivity|]); (split; [simpl; auto 10|]);
    (split; [reflexivity|]); (split; [lia|]);
    (split; [reflexivity|]); (split; [reflexivity|]);
    (split; [reflexivity|]);
    intros key' text' lo' hi' Hin Hb Hband; simpl in Hin;
    repeat (destruct Hin as [Hin | Hin];
            [injection Hin as <- <-; vm_compute in Hb;
             injection Hb as <- <-; (reflexivity || lia)|]);
    destruct Hin.
Qed.

Lemma explained_bands_match_rating_witness :
  exists table key text lo hi itext detail,
    result_property (callTool "explain_trustable_score" no_args) "ratings"
    = Some (VObj table)
    /\ In (key, VStr text) table
    /\ band_bounds key = Some (lo, hi)
    /\ lo <= 79 <= hi
    /\ get_property interpretations (rating_of 79%js) = VStr itext
    /\ text = capitalize (rating_of 79%js) ++ " - " ++ detail
    /\ prefix detail itext = true
    /\ (forall key' text' lo' hi',
          In (key', VStr text') table ->
          band_bounds key' = Some (lo', hi') ->
          lo' <= 79 <= hi' -> key' = key).
Proof.
  apply (explained_bands_match_rating no_args 79). lia.
Defined.
